(** * Normalisation and MITRE enrichment of security alerts (app.py)

    A shallow embedding of the helper functions [parse_time],
    [pick_source], [pick_alert_type], [severity_bucket], [mitre_enrich],
    of the module-level normalisation loop and of the filters and metrics
    of [app.py], followed by the properties of that code.

    Modelling conventions.
    - A value decoded by [json.load] is a [pyval].  A Python [dict] is the
      list of its [items()], in insertion order; a lookup takes the first
      binding of the key (the keys of a real dict are pairwise distinct).
    - A Python [str] is the [string] of the bytes of its UTF-8 encoding
      (a lone surrogate, which JSON can hold, is encoded by the same
      scheme).  The encoding is injective, prefix-free and
      self-synchronising, so equality, emptiness and the substring test
      [in] on two [str] are the same tests on their encodings.
    - [str.lower] and [str.strip] are built-ins of the language, defined
      by the Unicode tables: they are variables [lower] and [strip] of
      the sections, and what a property needs of them is a hypothesis.
    - A computation that can raise returns a [result]; [Raise e] is an
      exception that propagates to the caller.
    - [dateutil.parser.parse] is not code of this module: it is a
      variable [parser_parse], the parser as it answers during one run. *)

From Stdlib Require Import String Ascii List Bool ZArith NArith Lia.
From Stdlib Require Import Floats.SpecFloat.
Import ListNotations.

Open Scope string_scope.
Open Scope list_scope.

(** ** Python values *)

#[warnings="-register-all"]
Inductive pyval : Type :=
| PNone
| PBool (b : bool)
| PInt (z : Z)
| PFloat (f : spec_float)
| PStr (s : string)
| PList (l : list pyval)
| PDict (d : list (string * pyval)).

Definition dict := list (string * pyval).

(** [bool(v)]: the truth value Python's [or], [not] and [if] look at. *)
Definition truthy (v : pyval) : bool :=
  match v with
  | PNone => false
  | PBool b => b
  | PInt z => negb (Z.eqb z 0)
  | PFloat (S754_zero _) => false
  | PFloat _ => true
  | PStr s => negb (String.eqb s EmptyString)
  | PList l => match l with [] => false | _ :: _ => true end
  | PDict d => match d with [] => false | _ :: _ => true end
  end.

(** [x or y] on values whose evaluation has no effect. *)
Definition py_or (x y : pyval) : pyval := if truthy x then x else y.

(** [type(v).__name__] *)
Definition type_name (v : pyval) : string :=
  match v with
  | PNone => "NoneType"
  | PBool _ => "bool"
  | PInt _ => "int"
  | PFloat _ => "float"
  | PStr _ => "str"
  | PList _ => "list"
  | PDict _ => "dict"
  end.

Definition is_str (v : pyval) : bool :=
  match v with PStr _ => true | _ => false end.

Definition is_dict (v : pyval) : bool :=
  match v with PDict _ => true | _ => false end.

(** ** Exceptions *)

Inductive exn : Type :=
| AttributeError (ty attr : string)   (* 'ty' object has no attribute 'attr' *)
| OtherException (name : string).     (* any other subclass of Exception *)

Inductive result (A : Type) : Type :=
| Ok (a : A)
| Raise (e : exn).

Arguments Ok {A} a.
Arguments Raise {A} e.

Definition bind {A B : Type} (r : result A) (k : A -> result B) : result B :=
  match r with
  | Ok a => k a
  | Raise e => Raise e
  end.

Notation "x <- r ;; k" := (bind r (fun x => k))
  (at level 61, r at next level, right associativity).

(** [try: body  except Exception: handler] *)
Definition try_except {A : Type} (body : result A) (handler : exn -> result A)
  : result A :=
  match body with
  | Ok a => Ok a
  | Raise e => handler e
  end.

Definition raises {A : Type} (r : result A) : bool :=
  match r with Ok _ => false | Raise _ => true end.

(** ** Dictionaries *)

Fixpoint lookup (d : dict) (key : string) : option pyval :=
  match d with
  | [] => None
  | (k, v) :: rest => if String.eqb k key then Some v else lookup rest key
  end.

(** [d.get(key)] *)
Definition dict_get (d : dict) (key : string) : pyval :=
  match lookup d key with
  | Some v => v
  | None => PNone
  end.

(** [d.get(key, default)] *)
Definition dict_get_default (d : dict) (key : string) (default : pyval)
  : pyval :=
  match lookup d key with
  | Some v => v
  | None => default
  end.

(** [del d[key]] where the key may be absent: the dict without the key. *)
Definition dict_del (d : dict) (key : string) : dict :=
  filter (fun kv => negb (String.eqb (fst kv) key)) d.

(** [mapping.get(key, default)] on an arbitrary value: only a dict has the
    method. *)
Definition py_get (mapping : pyval) (key : string) (default : pyval)
  : result pyval :=
  match mapping with
  | PDict d => Ok (dict_get_default d key default)
  | _ => Raise (AttributeError (type_name mapping) "get")
  end.

(** ** Strings *)

(** [k in t] on two strings: [k] is a substring of [t]. *)
Fixpoint str_in (k t : string) : bool :=
  (prefix k t ||
   match t with
   | EmptyString => false
   | String _ t' => str_in k t'
   end)%bool.

(** [x in l] on a list of strings. *)
Definition list_in (x : string) (l : list string) : bool :=
  existsb (String.eqb x) l.

(** ** The helper functions of app.py *)

Section Helpers.

(** [str.lower] and [str.strip]. *)
Variable lower : string -> string.
Variable strip : string -> string.

(** The type of [datetime] objects, and [dateutil.parser.parse] as it
    answers during one run: it fills the fields that a text leaves out
    from the current date, so it need not be the same function in the
    next run. *)
Variable datetime : Type.
Variable parser_parse : pyval -> result datetime.

(** The module-level [mitre_map], as its [items()]. *)
Variable mitre_map : dict.

(** [v.lower()]: only a [str] has the method. *)
Definition py_lower (v : pyval) : result string :=
  match v with
  | PStr s => Ok (lower s)
  | _ => Raise (AttributeError (type_name v) "lower")
  end.

Definition parse_time (alert : dict) : result (option datetime) :=
  let ts := py_or (py_or (dict_get alert "timestamp")
                         (dict_get alert "time"))
                  (dict_get alert "event_time") in
  if negb (truthy ts) then Ok None
  else
    try_except (t <- parser_parse ts ;; Ok (Some t))
               (fun _ => Ok None).

Definition pick_source (alert : dict) : pyval :=
  py_or (py_or (py_or (dict_get alert "source") (dict_get alert "vendor"))
               (dict_get alert "product"))
        (PStr "Unknown").

Definition pick_alert_type (alert : dict) : pyval :=
  py_or (py_or (py_or (dict_get alert "type") (dict_get alert "alert_type"))
               (dict_get alert "signature"))
        (PStr "Unknown").

Definition severity_bucket (alert : dict) (alert_type_text : pyval)
  : result string :=
  sev0 <- py_lower (py_or (dict_get alert "severity") (PStr EmptyString)) ;;
  let sev := strip sev0 in
  text <- py_lower (py_or alert_type_text (PStr EmptyString)) ;;
  if list_in sev ["critical"; "high"] then Ok "High"
  else if String.eqb sev "medium" then Ok "Medium"
  else if String.eqb sev "low" then Ok "Low"
  (* fallback rules if severity missing *)
  else if existsb (fun k => str_in k text) ["sql injection"; "malware"]
  then Ok "High"
  else if existsb (fun k => str_in k text)
                  ["brute force"; "failed login"; "port scan"]
  then Ok "Medium"
  else Ok "Low".

(** The [for keyword, mapping in mitre_map.items()] loop with its early
    [return]. *)
Fixpoint mitre_scan (items : dict) (text : string)
  : result (pyval * pyval) :=
  match items with
  | [] => Ok (PStr "Unknown", PStr "Unknown")
  | (keyword, mapping) :: rest =>
      if str_in keyword text then
        tactic <- py_get mapping "tactic" (PStr "Unknown") ;;
        technique <- py_get mapping "technique" (PStr "Unknown") ;;
        Ok (tactic, technique)
      else mitre_scan rest text
  end.

Definition mitre_enrich (alert_type_text : pyval)
  : result (pyval * pyval) :=
  text <- py_lower (py_or alert_type_text (PStr EmptyString)) ;;
  mitre_scan mitre_map text.

(** ** Normalize + enrich *)

(** One element of [normalized_rows]. *)
Record row : Type := mk_row {
  row_timestamp : option datetime;
  row_source : pyval;
  row_alert_type : pyval;
  row_severity_bucket : string;
  row_mitre_tactic : pyval;
  row_mitre_technique : pyval
}.

(** [a.get] of the first helper called on [a]: only a dict has it. *)
Definition as_dict (a : pyval) : result dict :=
  match a with
  | PDict d => Ok d
  | _ => Raise (AttributeError (type_name a) "get")
  end.

(** The body of the loop, for one alert [a]. *)
Definition normalize (a : pyval) : result row :=
  alert <- as_dict a ;;
  let atype := pick_alert_type alert in
  ts <- parse_time alert ;;
  let src := pick_source alert in
  bucket <- severity_bucket alert atype ;;
  tt <- mitre_enrich atype ;;
  Ok (mk_row ts src atype bucket (fst tt) (snd tt)).

(** [for a in raw_alerts: ... normalized_rows.append(...)]: the rows
    appended so far and the exception that stopped the loop, if any. *)
Fixpoint loop (alerts : list pyval) (rows : list row)
  : list row * option exn :=
  match alerts with
  | [] => (rows, None)
  | a :: rest =>
      match normalize a with
      | Ok r => loop rest (rows ++ [r])
      | Raise e => (rows, Some e)
      end
  end.

(** The module-level names the loop reads and writes. *)
Record globals : Type := mk_globals {
  raw_alerts : list pyval;
  normalized_rows : list row
}.

(** [normalized_rows = []] followed by the loop. *)
Definition run (g : globals) : globals * option exn :=
  let rows0 := [] in
  let '(rows, e) := loop (raw_alerts g) rows0 in
  (mk_globals (raw_alerts g) rows, e).

End Helpers.

Arguments row_timestamp {datetime} _.
Arguments row_source {datetime} _.
Arguments row_alert_type {datetime} _.
Arguments row_severity_bucket {datetime} _.
Arguments row_mitre_tactic {datetime} _.
Arguments row_mitre_technique {datetime} _.
Arguments raw_alerts {datetime} _.
Arguments normalized_rows {datetime} _.
(** ** Filters and metrics of the dashboard

    [df = pd.DataFrame(normalized_rows)] is the list of the rows together
    with the fact that it has columns: a frame built from an empty list
    has none, and a frame keeps its columns when rows are filtered out. *)

Section Dashboard.

Variable datetime : Type.

(** The element-wise [==] of pandas between a cell and the option chosen
    in a select box. *)
Variable cell_eq : pyval -> pyval -> bool.

Record frame : Type := mk_frame {
  frame_columns : bool;
  frame_rows : list (row datetime)
}.

(** [pd.DataFrame(rows)] *)
Definition DataFrame (rows : list (row datetime)) : frame :=
  mk_frame (match rows with [] => false | _ :: _ => true end) rows.

(** [df[name]], the cells of one column: KeyError without columns. *)
Definition getitem {A : Type} (df : frame) (cell : row datetime -> A)
  : result (list A) :=
  if frame_columns df then Ok (map cell (frame_rows df))
  else Raise (OtherException "KeyError").

Fixpoint mask_rows (rows : list (row datetime)) (mask : list bool)
  : list (row datetime) :=
  match rows, mask with
  | r :: rows', b :: mask' =>
      if b then r :: mask_rows rows' mask' else mask_rows rows' mask'
  | _, _ => []
  end.

(** [df[mask]] with a boolean mask. *)
Definition getitem_mask (df : frame) (mask : list bool) : frame :=
  mk_frame (frame_columns df) (mask_rows (frame_rows df) mask).

(** [v != s] for a string [s]. *)
Definition py_ne_str (v : pyval) (s : string) : bool :=
  match v with
  | PStr s' => negb (String.eqb s' s)
  | _ => true
  end.

(** [mask.sum()] *)
Definition mask_sum (mask : list bool) : nat :=
  length (filter (fun b : bool => b) mask).

(** The three [if f != "All": df_filtered = df_filtered[...]] steps. *)
Definition apply_filters (df : frame) (f_source : pyval) (f_sev : string)
  (f_tactic : pyval) : result frame :=
  let df_filtered := df in
  df_filtered <-
    (if py_ne_str f_source "All" then
       col <- getitem df_filtered row_source ;;
       Ok (getitem_mask df_filtered (map (fun c => cell_eq c f_source) col))
     else Ok df_filtered) ;;
  df_filtered <-
    (if negb (String.eqb f_sev "All") then
       col <- getitem df_filtered row_severity_bucket ;;
       Ok (getitem_mask df_filtered (map (fun c => String.eqb c f_sev) col))
     else Ok df_filtered) ;;
  df_filtered <-
    (if py_ne_str f_tactic "All" then
       col <- getitem df_filtered row_mitre_tactic ;;
       Ok (getitem_mask df_filtered (map (fun c => cell_eq c f_tactic) col))
     else Ok df_filtered) ;;
  Ok df_filtered.

(** [total_alerts], [high_alerts] and [mapped_alerts]. *)
Definition metrics (df_filtered : frame) : result (nat * nat * nat) :=
  let total_alerts := length (frame_rows df_filtered) in
  sev <- getitem df_filtered row_severity_bucket ;;
  let high_alerts := mask_sum (map (fun c => String.eqb c "High") sev) in
  tech <- getitem df_filtered row_mitre_technique ;;
  let mapped_alerts := mask_sum (map (fun c => py_ne_str c "Unknown") tech) in
  Ok (total_alerts, high_alerts, mapped_alerts).

End Dashboard.

Arguments frame_columns {datetime} _.
Arguments frame_rows {datetime} _.
Arguments DataFrame {datetime} rows.
Arguments getitem {datetime A} df cell.
Arguments getitem_mask {datetime} df mask.
Arguments apply_filters {datetime} cell_eq df f_source f_sev f_tactic.
Arguments metrics {datetime} df_filtered.

(** ** Sample data

    Stand-ins for the built-ins, to evaluate the functions on concrete
    alerts.  [ascii_lower] and [ascii_strip] do what [str.lower] and
    [str.strip] do on a text of ASCII characters: the letters A to Z are
    lowered, the ASCII white space (TAB, LF, VT, FF, CR, FS, GS, RS, US,
    SPACE) is trimmed, and every other byte is left alone. *)

Definition is_ascii_upper (c : ascii) : bool :=
  let n := N_of_ascii c in (N.leb 65 n && N.leb n 90)%bool.

Definition ascii_lower_char (c : ascii) : ascii :=
  if is_ascii_upper c then ascii_of_N (N_of_ascii c + 32) else c.

Fixpoint ascii_lower (s : string) : string :=
  match s with
  | EmptyString => EmptyString
  | String c s' => String (ascii_lower_char c) (ascii_lower s')
  end.

Definition is_ascii_space (c : ascii) : bool :=
  let n := N_of_ascii c in
  ((N.leb 9 n && N.leb n 13) || (N.leb 28 n && N.leb n 32))%bool.

Fixpoint ascii_lstrip (s : string) : string :=
  match s with
  | EmptyString => EmptyString
  | String c s' => if is_ascii_space c then ascii_lstrip s' else s
  end.

Fixpoint ascii_rstrip (s : string) : string :=
  match s with
  | EmptyString => EmptyString
  | String c s' =>
      let r := ascii_rstrip s' in
      if (is_ascii_space c && String.eqb r EmptyString)%bool then EmptyString
      else String c r
  end.

Definition ascii_strip (s : string) : string := ascii_rstrip (ascii_lstrip s).

(** A stand-in for [dateutil.parser.parse]: a string of shape
    [YYYY-MM-DD] parses to itself, any other string raises [ParserError]
    and a value that is not a string raises [TypeError]. *)

Definition is_digit (c : ascii) : bool :=
  let n := N_of_ascii c in (N.leb 48 n && N.leb n 57)%bool.

Definition sample_parse (v : pyval) : result string :=
  match v with
  | PStr s =>
      match list_ascii_of_string s with
      | [y1; y2; y3; y4; "-"%char; m1; m2; "-"%char; d1; d2] =>
          if forallb is_digit [y1; y2; y3; y4; m1; m2; d1; d2] then Ok s
          else Raise (OtherException "ParserError")
      | _ => Raise (OtherException "ParserError")
      end
  | _ => Raise (OtherException "TypeError")
  end.

(** The same parser as it answers on the day [today]: like
    [dateutil.parser.parse], it completes a time of day [HH:MM] with the
    current date. *)
Definition sample_parse_on (today : string) (v : pyval) : result string :=
  match v with
  | PStr s =>
      match list_ascii_of_string s with
      | [h1; h2; ":"%char; m1; m2] =>
          if forallb is_digit [h1; h2; m1; m2]
          then Ok (today ++ " " ++ s)%string
          else Raise (OtherException "ParserError")
      | _ => sample_parse v
      end
  | _ => sample_parse v
  end.

(** The mapping table of the specification's match-order example. *)
Definition sample_map : dict :=
  [ ("brute force",
     PDict [("tactic", PStr "Credential Access"); ("technique", PStr "T1110")]);
    ("login", PDict [("tactic", PStr "X"); ("technique", PStr "Y")]) ].

(** Three alerts from different sources, all well formed. *)
Definition sample_alerts : list pyval :=
  [ PDict [("timestamp", PStr "2024-01-02"); ("source", PStr "ids");
           ("type", PStr "Brute Force login attempt")];
    PDict [("time", PStr "yesterday"); ("vendor", PStr "edr");
           ("alert_type", PStr "Malware found");
           ("severity", PStr "informational")];
    PDict [("signature", PStr "unexplained anomaly"); ("severity", PNone)] ].

(** The same batch with a numeric severity on its second alert. *)
Definition numeric_severity_alerts : list pyval :=
  [ PDict [("type", PStr "port scan")];
    PDict [("type", PStr "malware"); ("severity", PInt 3)];
    PDict [("type", PStr "failed login")] ].

(** A table whose only entry has a null tactic. *)
Definition null_tactic_map : dict :=
  [ ("scan", PDict [("tactic", PNone); ("technique", PStr "T1046")]) ].

(** U+1D400, MATHEMATICAL BOLD CAPITAL A, in UTF-8: an uppercase letter
    (category Lu) without a lowercase form, which [str.lower] leaves as
    it is. *)
Definition bold_capital_a : string :=
  String (ascii_of_N 240) (String (ascii_of_N 157)
    (String (ascii_of_N 144) (String (ascii_of_N 128) EmptyString))).

(** A stand-in for the element-wise [==] of pandas, on strings. *)
Definition sample_cell_eq (cell option : pyval) : bool :=
  match cell, option with
  | PStr a, PStr b => String.eqb a b
  | _, _ => false
  end.

(** Three rows of a frame. *)
Definition sample_rows : list (row string) :=
  [ mk_row string (Some "2024-01-02") (PStr "ids") (PStr "Port Scan")
           "Medium" (PStr "Discovery") (PStr "T1046");
    mk_row string None (PStr "edr") (PStr "Malware found")
           "High" (PStr "Unknown") (PStr "Unknown");
    mk_row string None (PStr "ids") (PStr "SQL Injection detected")
           "High" (PStr "Initial Access") PNone ].

(** ** Notions the properties are stated with *)

(** [k] occurs in [t] as a substring. *)
Definition contains (t k : string) : Prop :=
  exists a b : string, t = (a ++ k ++ b)%string.

(** No keyword of the entries [items] occurs in [t]. *)
Definition no_hit (items : dict) (t : string) : Prop :=
  Forall (fun kv => ~ contains t (fst kv)) items.

(** [s] holds one of the letters A to Z. *)
Fixpoint has_ascii_upper (s : string) : bool :=
  match s with
  | EmptyString => false
  | String c s' => (is_ascii_upper c || has_ascii_upper s')%bool
  end.

(** [s] is a text of ASCII characters. *)
Fixpoint is_ascii (s : string) : bool :=
  match s with
  | EmptyString => true
  | String c s' => (N.ltb (N_of_ascii c) 128 && is_ascii s')%bool
  end.

(** A field value the code reads as text: a string, or a value that is
    absent, [None] or otherwise false and so replaced by the empty
    string. *)
Definition str_or_falsy (v : pyval) : bool :=
  (is_str v || negb (truthy v))%bool.

(** The value a [try] block yields when its handler returns [None]. *)
Definition to_option {A : Type} (r : result A) : option A :=
  match r with
  | Ok a => Some a
  | Raise _ => None
  end.

(** The first value of [vs] that is not empty (not false), if any. *)
Definition first_nonempty (vs : list pyval) : option pyval :=
  find truthy vs.

(** The severity algorithm in the words of the specification:
    the explicit severity [raw_severity] (absent: [None]), normalised to
    lowercase and trimmed, decides when it is recognised; otherwise the
    keywords of the lowercased alert-type text decide. *)
Definition classify_severity (lower strip : string -> string)
  (raw_severity : option string) (alert_type_text : string) : string :=
  let sev := match raw_severity with
             | Some s => strip (lower s)
             | None => EmptyString
             end in
  let text := lower alert_type_text in
  if (String.eqb sev "critical" || String.eqb sev "high")%bool then "High"
  else if String.eqb sev "medium" then "Medium"
  else if String.eqb sev "low" then "Low"
  else if (str_in "sql injection" text || str_in "malware" text)%bool
  then "High"
  else if (str_in "brute force" text || str_in "failed login" text
           || str_in "port scan" text)%bool
  then "Medium"
  else "Low".

(** The severity strings the first rule recognises. *)
Definition recognised (sev : string) : bool :=
  list_in sev ["critical"; "high"; "medium"; "low"].

(** An alert the loop can normalise: a record whose severity is text (or
    empty) and whose resolved alert type is a string. *)
Definition alert_ok (a : pyval) : bool :=
  match a with
  | PDict d =>
      (str_or_falsy (dict_get d "severity") && is_str (pick_alert_type d))%bool
  | _ => false
  end.

(** A mapping-table entry as the data model has it: a record whose
    tactic and technique, where present, are strings. *)
Definition entry_ok (kv : string * pyval) : bool :=
  match snd kv with
  | PDict d =>
      (is_str (dict_get_default d "tactic" (PStr "Unknown"))
       && is_str (dict_get_default d "technique" (PStr "Unknown")))%bool
  | _ => false
  end.

Definition is_bucket (s : string) : bool :=
  list_in s ["High"; "Medium"; "Low"].

(** What every row of a well-formed run satisfies. *)
Definition row_ok {datetime : Type} (r : row datetime) : bool :=
  (is_bucket (row_severity_bucket r)
   && is_str (row_mitre_tactic r) && is_str (row_mitre_technique r))%bool.

(** The keys of a raw alert the helper functions read. *)
Definition read_keys : list string :=
  ["type"; "alert_type"; "signature"; "timestamp"; "time"; "event_time";
   "source"; "vendor"; "product"; "severity"].

(** The order Low < Medium < High on severity buckets. *)
Definition rank (bucket : string) : nat :=
  if String.eqb bucket "High" then 2
  else if String.eqb bucket "Medium" then 1
  else 0.

(** What a row of a run satisfies whatever the input: a source and an
    alert type that are not empty, and one of the three buckets. *)
Definition row_filled {datetime : Type} (r : row datetime) : bool :=
  (truthy (row_source r) && truthy (row_alert_type r)
   && is_bucket (row_severity_bucket r))%bool.

(** The rows the three select boxes let through. *)
Definition row_passes {datetime : Type} (cell_eq : pyval -> pyval -> bool)
  (f_source : pyval) (f_sev : string) (f_tactic : pyval)
  (r : row datetime) : bool :=
  ((negb (py_ne_str f_source "All") || cell_eq (row_source r) f_source)
   && (String.eqb f_sev "All" || String.eqb (row_severity_bucket r) f_sev)
   && (negb (py_ne_str f_tactic "All")
       || cell_eq (row_mitre_tactic r) f_tactic))%bool.

(** The value [parse_time] hands to the parser: the [ts] of its first
    line. *)
Definition time_value (alert : dict) : pyval :=
  py_or (py_or (dict_get alert "timestamp") (dict_get alert "time"))
        (dict_get alert "event_time").

(** A row without its timestamp. *)
Definition untimed {datetime : Type} (r : row datetime)
  : pyval * pyval * string * pyval * pyval :=
  (row_source r, row_alert_type r, row_severity_bucket r,
   row_mitre_tactic r, row_mitre_technique r).

(** The keyword rules on a lowercased text [t], for a result [result]
    that the fallback decides. *)
Definition keyword_rules (t : string) (result : result string) : Prop :=
  (contains t "sql injection" \/ contains t "malware" -> result = Ok "High")
  /\ (~ contains t "sql injection" -> ~ contains t "malware" ->
      (contains t "brute force" \/ contains t "failed login"
       \/ contains t "port scan" -> result = Ok "Medium")
      /\ (~ contains t "brute force" -> ~ contains t "failed login" ->
          ~ contains t "port scan" -> result = Ok "Low")).

(** * Properties *)

(** Case analysis on every test of a chain of conditionals. *)
Ltac split_ifs :=
  repeat match goal with
         | |- context [if ?b then _ else _] => destruct b
         end.

(** ** Substrings *)

Lemma prefix_iff (k t : string) :
  prefix k t = true <-> exists b, t = (k ++ b)%string.
Proof.
  revert t; induction k as [|c k IH]; intros t; simpl.
  - split; [intros _; now exists t | intros _; now destruct t].
  - destruct t as [|c' t].
    + split; [discriminate | intros [b Hb]; discriminate].
    + cbn [prefix]. destruct (ascii_dec c c') as [Heq|Hne].
      * subst c'. rewrite IH. split; intros [b Hb]; exists b.
        -- now rewrite Hb.
        -- now injection Hb.
      * split; [discriminate|].
        intros [b Hb]. injection Hb as Hc _. now elim Hne.
Qed.

Lemma str_in_iff (k t : string) : str_in k t = true <-> contains t k.
Proof.
  unfold contains. induction t as [|c t IH].
  - cbn [str_in]. rewrite orb_false_r, prefix_iff. split.
    + intros [b Hb]. now exists EmptyString, b.
    + intros [a [b Hab]]. destruct a; simpl in Hab.
      * now exists b.
      * discriminate.
  - cbn [str_in]. rewrite orb_true_iff, prefix_iff, IH. split.
    + intros [[b Hb]|[a [b Hab]]].
      * now exists EmptyString, b.
      * exists (String c a), b. simpl. now rewrite Hab.
    + intros [a [b Hab]]. destruct a as [|c' a]; simpl in Hab.
      * left. now exists b.
      * right. exists a, b. now injection Hab.
Qed.

Lemma str_in_false_iff (k t : string) : str_in k t = false <-> ~ contains t k.
Proof.
  rewrite <- str_in_iff. now destruct (str_in k t).
Qed.

Lemma contains_empty (t : string) : contains t EmptyString.
Proof.
  exists EmptyString, t. reflexivity.
Qed.

Lemma string_app_assoc (a b c : string) :
  ((a ++ b) ++ c)%string = (a ++ b ++ c)%string.
Proof.
  induction a as [|x a IH]; simpl; [reflexivity|]. now rewrite IH.
Qed.

Lemma contains_trans (t2 t1 k : string) :
  contains t2 t1 -> contains t1 k -> contains t2 k.
Proof.
  intros [a [b ->]] [a' [b' ->]].
  exists (a ++ a')%string, (b' ++ b)%string.
  now rewrite !string_app_assoc.
Qed.

Lemma has_ascii_upper_app (a b : string) :
  has_ascii_upper (a ++ b)%string
  = (has_ascii_upper a || has_ascii_upper b)%bool.
Proof.
  induction a as [|c a IH]; simpl; [reflexivity|].
  now rewrite IH, orb_assoc.
Qed.

Lemma contains_has_ascii_upper (k t : string) :
  contains t k -> has_ascii_upper k = true -> has_ascii_upper t = true.
Proof.
  intros [a [b ->]] Hk.
  now rewrite !has_ascii_upper_app, Hk, orb_true_r.
Qed.

Example str_in_example :
  str_in "sql injection" "sql injection detected" = true
  /\ str_in "login" "failed log in" = false
  /\ str_in EmptyString "x" = true.
Proof. repeat split. Qed.

(** ** The ASCII stand-ins have what the properties ask of the built-ins *)

Lemma ascii_lower_char_not_upper (c : ascii) :
  is_ascii_upper (ascii_lower_char c) = false.
Proof.
  destruct c as [[] [] [] [] [] [] [] []]; reflexivity.
Qed.

Lemma ascii_lower_no_upper (s : string) :
  has_ascii_upper (ascii_lower s) = false.
Proof.
  induction s as [|c s IH]; simpl; [reflexivity|].
  now rewrite ascii_lower_char_not_upper, IH.
Qed.

Lemma ascii_lower_app (a b : string) :
  ascii_lower (a ++ b)%string = (ascii_lower a ++ ascii_lower b)%string.
Proof.
  induction a as [|c a IH]; simpl; [reflexivity|]. now rewrite IH.
Qed.

Lemma ascii_lower_extends (k t1 t2 : string) :
  is_ascii k = true ->
  contains t2 t1 ->
  contains (ascii_lower t1) k -> contains (ascii_lower t2) k.
Proof.
  intros _ [a [b ->]] Hk. apply (contains_trans _ (ascii_lower t1)); [|exact Hk].
  exists (ascii_lower a), (ascii_lower b). now rewrite !ascii_lower_app.
Qed.

Example ascii_strip_lower_example :
  ascii_strip (ascii_lower (String "009" " Critical  ")) = "critical"
  /\ ascii_strip " " = EmptyString /\ ascii_strip "a b" = "a b".
Proof. repeat split. Qed.

(** ** Reading a field as text *)

Section Classifiers.

Variable lower : string -> string.
Variable strip : string -> string.

Lemma py_lower_text (text : string) :
  py_lower lower (py_or (PStr text) (PStr EmptyString)) = Ok (lower text).
Proof.
  unfold py_or. simpl.
  destruct (String.eqb_spec text EmptyString) as [->|_]; reflexivity.
Qed.

Lemma py_lower_ok_iff (v : pyval) :
  raises (py_lower lower (py_or v (PStr EmptyString))) = false
  <-> str_or_falsy v = true.
Proof.
  unfold py_or, str_or_falsy.
  destruct (truthy v) eqn:Ht; simpl.
  - rewrite orb_false_r. destruct v; simpl; split; congruence.
  - rewrite orb_true_r. split; reflexivity.
Qed.

Lemma py_lower_falsy (v : pyval) :
  truthy v = false ->
  py_lower lower (py_or v (PStr EmptyString)) = Ok (lower EmptyString).
Proof.
  intros Hv. unfold py_or. now rewrite Hv.
Qed.

Lemma recognised_false (sev : string) :
  recognised sev = false ->
  list_in sev ["critical"; "high"] = false
  /\ String.eqb sev "medium" = false /\ String.eqb sev "low" = false.
Proof.
  unfold recognised, list_in. simpl. rewrite !orb_false_r.
  intros H. repeat (apply orb_false_iff in H; destruct H as [? H]).
  repeat split; try assumption.
  apply orb_false_iff; split; assumption.
Qed.

(** The decision taken once both texts are read, as the source orders it. *)
Lemma severity_bucket_refines (alert : dict) (raw text : string) :
  py_or (dict_get alert "severity") (PStr EmptyString) = PStr raw ->
  severity_bucket lower strip alert (PStr text)
  = Ok (classify_severity lower strip (Some raw) text).
Proof.
  intros Hraw. unfold severity_bucket, classify_severity.
  rewrite Hraw, py_lower_text. cbn [py_lower bind list_in existsb].
  rewrite !orb_false_r.
  destruct (String.eqb (strip (lower raw)) "critical");
    destruct (String.eqb (strip (lower raw)) "high");
    destruct (String.eqb (strip (lower raw)) "medium");
    destruct (String.eqb (strip (lower raw)) "low");
    cbn [orb]; try reflexivity;
    destruct (str_in "sql injection" (lower text));
    destruct (str_in "malware" (lower text));
    destruct (str_in "brute force" (lower text));
    destruct (str_in "failed login" (lower text));
    destruct (str_in "port scan" (lower text)); reflexivity.
Qed.

Lemma severity_bucket_cases (alert : dict) (raw text : string) :
  py_or (dict_get alert "severity") (PStr EmptyString) = PStr raw ->
  let sev := strip (lower raw) in
  let t := lower text in
  let result := severity_bucket lower strip alert (PStr text) in
  (sev = "critical" \/ sev = "high" -> result = Ok "High")
  /\ (sev = "medium" -> result = Ok "Medium")
  /\ (sev = "low" -> result = Ok "Low")
  /\ (sev <> "critical" -> sev <> "high" -> sev <> "medium" -> sev <> "low" ->
      (contains t "sql injection" \/ contains t "malware" ->
       result = Ok "High")
      /\ (~ contains t "sql injection" -> ~ contains t "malware" ->
          (contains t "brute force" \/ contains t "failed login"
           \/ contains t "port scan" -> result = Ok "Medium")
          /\ (~ contains t "brute force" -> ~ contains t "failed login" ->
              ~ contains t "port scan" -> result = Ok "Low"))).
Proof.
  intros Hraw sev t result. subst result.
  rewrite (severity_bucket_refines alert raw text Hraw).
  unfold classify_severity. fold sev. fold t.
  destruct (String.eqb_spec sev "critical") as [Hc|Hc];
    destruct (String.eqb_spec sev "high") as [Hh|Hh];
    destruct (String.eqb_spec sev "medium") as [Hm|Hm];
    destruct (String.eqb_spec sev "low") as [Hl|Hl];
    cbn [orb]; try (rewrite Hc in *); try (rewrite Hh in *);
    try (rewrite Hm in *); try (rewrite Hl in *);
    try (repeat split; intros; try reflexivity;
         solve [ congruence | intuition congruence ]).
  split; [intros [H|H]; congruence|].
  split; [congruence|]. split; [congruence|].
  intros _ _ _ _. split.
  - intros Hk.
    assert (Hb : (str_in "sql injection" t || str_in "malware" t)%bool = true).
    { apply orb_true_iff. destruct Hk as [Hk|Hk];
        [left | right]; now apply str_in_iff. }
    now rewrite Hb.
  - intros Hsql Hmal.
    apply str_in_false_iff in Hsql, Hmal. rewrite Hsql, Hmal. cbn [orb].
    split.
    + intros Hk.
      assert (Hb : (str_in "brute force" t || str_in "failed login" t
                    || str_in "port scan" t)%bool = true).
      { rewrite !orb_true_iff. destruct Hk as [Hk|[Hk|Hk]];
          [left; left | left; right | right]; now apply str_in_iff. }
      now rewrite Hb.
    + intros Hb Hf Hp.
      apply str_in_false_iff in Hb, Hf, Hp.
      now rewrite Hb, Hf, Hp.
Qed.

(** ** Severity *)


Lemma lookup_dict_del (d : dict) (key : string) :
  lookup (dict_del d key) key = None.
Proof.
  induction d as [|[k v] d IH]; simpl; [reflexivity|].
  destruct (String.eqb k key) eqn:Hk; simpl; [exact IH|].
  now rewrite Hk.
Qed.

Lemma recognised_neq (sev : string) :
  recognised sev = false ->
  sev <> "critical" /\ sev <> "high" /\ sev <> "medium" /\ sev <> "low".
Proof.
  intros H. repeat split; intros ->; discriminate.
Qed.

Lemma severity_bucket_ok_iff (alert : dict) (alert_type_text : pyval) :
  raises (severity_bucket lower strip alert alert_type_text) = false
  <-> str_or_falsy (dict_get alert "severity") = true
      /\ str_or_falsy alert_type_text = true.
Proof.
  rewrite <- !py_lower_ok_iff. unfold severity_bucket.
  destruct (py_lower lower (py_or (dict_get alert "severity")
                                  (PStr EmptyString))) as [s|e];
    destruct (py_lower lower (py_or alert_type_text (PStr EmptyString)))
      as [t|e'];
    cbn [bind raises]; try (split; [discriminate | intros [? ?]; discriminate]).
  split; [now split|]. intros _. split_ifs; reflexivity.
Qed.

Lemma severity_bucket_is_bucket
  (alert : dict) (alert_type_text : pyval) (b : string) :
  severity_bucket lower strip alert alert_type_text = Ok b ->
  is_bucket b = true.
Proof.
  unfold severity_bucket.
  destruct (py_lower lower (py_or (dict_get alert "severity")
                                  (PStr EmptyString)));
    [|discriminate].
  destruct (py_lower lower (py_or alert_type_text (PStr EmptyString)));
    [|discriminate].
  cbn [bind]. split_ifs; intros H; injection H as <-; reflexivity.
Qed.

Lemma mitre_scan_dicts (items : dict) (t : string) :
  forallb (fun kv => is_dict (snd kv)) items = true ->
  raises (mitre_scan items t) = false.
Proof.
  induction items as [|[k m] items IH]; simpl; [reflexivity|].
  intros H. apply andb_true_iff in H. destruct H as [Hm Hrest].
  destruct (str_in k t); [|now apply IH].
  destruct m; try discriminate. reflexivity.
Qed.

Section EmptyText.

(** The empty text has no letter to lower and nothing to trim. *)
Hypothesis lower_empty : lower EmptyString = EmptyString.
Hypothesis strip_empty : strip EmptyString = EmptyString.

(** C7. A record whose severity field is a string that, lowercased and
    trimmed, is none of "critical", "high", "medium", "low" is classified
    exactly as the same record without the severity field, for every
    alert-type text; and the bucket is the one the keyword rules give on
    the lowercased alert-type text: High, Medium or Low, never a fourth
    bucket. *)
Theorem unrecognised_severity_as_absent (alert : dict) (s : string) :
  dict_get alert "severity" = PStr s ->
  recognised (strip (lower s)) = false ->
  (forall alert_type_text : pyval,
      severity_bucket lower strip alert alert_type_text
      = severity_bucket lower strip (dict_del alert "severity")
                        alert_type_text)
  /\ (forall text : string,
         keyword_rules (lower text)
           (severity_bucket lower strip alert (PStr text))).
Proof.
  intros Hs Hrec. split.
  - intros alert_type_text. unfold severity_bucket.
    replace (dict_get (dict_del alert "severity") "severity") with PNone
      by (unfold dict_get; now rewrite lookup_dict_del).
    rewrite Hs, py_lower_text.
    cbn [py_or truthy py_lower bind]. rewrite lower_empty, strip_empty.
    destruct (recognised_false _ Hrec) as [H1 [H2 H3]].
    rewrite H1, H2, H3. reflexivity.
  - intros text.
    assert (Hraw : py_or (dict_get alert "severity") (PStr EmptyString)
                   = PStr s).
    { rewrite Hs. unfold py_or. simpl.
      destruct (String.eqb_spec s EmptyString) as [->|_]; reflexivity. }
    destruct (recognised_neq _ Hrec) as [Hc [Hh [Hm Hl]]].
    exact (proj2 (proj2 (proj2 (severity_bucket_cases alert s text Hraw)))
             Hc Hh Hm Hl).
Qed.

(** C1, as the code has it.  [severity_bucket] returns without raising
    exactly when the severity field is a string or empty (absent, None,
    or another false value) and the alert-type text is a string or empty;
    [mitre_enrich] returns without raising when the alert-type text is a
    string or empty and every entry of the table is a record.  An empty
    severity with an empty text degrades to the default Low. *)
Theorem classifiers_total_on_text
  (mitre_map alert : dict) (alert_type_text : pyval) :
  (raises (severity_bucket lower strip alert alert_type_text) = false
   <-> str_or_falsy (dict_get alert "severity") = true
       /\ str_or_falsy alert_type_text = true)
  /\ (str_or_falsy alert_type_text = true ->
      forallb (fun kv => is_dict (snd kv)) mitre_map = true ->
      raises (mitre_enrich lower mitre_map alert_type_text) = false)
  /\ (truthy (dict_get alert "severity") = false ->
      truthy alert_type_text = false ->
      severity_bucket lower strip alert alert_type_text = Ok "Low").
Proof.
  split; [apply severity_bucket_ok_iff|split].
  - intros Ht Hm. unfold mitre_enrich.
    apply py_lower_ok_iff in Ht.
    destruct (py_lower lower (py_or alert_type_text (PStr EmptyString)));
      [|discriminate].
    cbn [bind]. now apply mitre_scan_dicts.
  - intros Hs Ht. unfold severity_bucket.
    rewrite (py_lower_falsy _ Hs), (py_lower_falsy _ Ht).
    cbn [bind]. now rewrite lower_empty, strip_empty.
Qed.

End EmptyText.

(** ** MITRE enrichment *)

Lemma mitre_scan_skip (pre rest : dict) (t : string) :
  no_hit pre t -> mitre_scan (pre ++ rest) t = mitre_scan rest t.
Proof.
  induction 1 as [|[k m] pre Hk _ IH]; simpl; [reflexivity|].
  apply str_in_false_iff in Hk. simpl in Hk. now rewrite Hk.
Qed.

Lemma mitre_scan_no_hit (items : dict) (t : string) :
  no_hit items t -> mitre_scan items t = Ok (PStr "Unknown", PStr "Unknown").
Proof.
  intros H. rewrite <- (app_nil_r items). now rewrite mitre_scan_skip.
Qed.

Lemma mitre_scan_hit (k : string) (m : pyval) (rest : dict) (t : string) :
  contains t k ->
  mitre_scan ((k, m) :: rest) t
  = (tactic <- py_get m "tactic" (PStr "Unknown") ;;
     technique <- py_get m "technique" (PStr "Unknown") ;;
     Ok (tactic, technique)).
Proof.
  intros Hk. apply str_in_iff in Hk. simpl. now rewrite Hk.
Qed.

Lemma mitre_enrich_text (mitre_map : dict) (text : string) :
  mitre_enrich lower mitre_map (PStr text) = mitre_scan mitre_map (lower text).
Proof.
  unfold mitre_enrich. now rewrite py_lower_text.
Qed.

Lemma mitre_scan_strings (items : dict) (t : string) :
  forallb entry_ok items = true ->
  exists tactic technique,
    mitre_scan items t = Ok (tactic, technique)
    /\ is_str tactic = true /\ is_str technique = true.
Proof.
  induction items as [|[k m] items IH]; simpl.
  - intros _. now exists (PStr "Unknown"), (PStr "Unknown").
  - intros H. apply andb_true_iff in H. destruct H as [Hm Hrest].
    destruct (str_in k t); [|now apply IH].
    unfold entry_ok in Hm. simpl in Hm. destruct m; try discriminate.
    apply andb_true_iff in Hm. destruct Hm as [Hta Hte].
    eexists _, _. simpl. split; [reflexivity|]. now split.
Qed.

(** C3. [mitre_enrich] looks at the lowercased text and at the entries of
    the table in their declared order: the first entry whose keyword
    occurs in the text gives the result, its tactic and its technique,
    whatever later entries match; when no keyword occurs in the text the
    result is ("Unknown", "Unknown"). *)
Theorem mitre_enrich_first_match (mitre_map : dict) (text : string) :
  let t := lower text in
  (forall pre k d post tactic technique,
      mitre_map = pre ++ (k, PDict d) :: post ->
      no_hit pre t ->
      contains t k ->
      lookup d "tactic" = Some tactic ->
      lookup d "technique" = Some technique ->
      mitre_enrich lower mitre_map (PStr text) = Ok (tactic, technique))
  /\ (no_hit mitre_map t ->
      mitre_enrich lower mitre_map (PStr text)
      = Ok (PStr "Unknown", PStr "Unknown")).
Proof.
  intros t. split.
  - intros pre k d post tactic technique -> Hpre Hk Hta Hte.
    rewrite mitre_enrich_text. fold t.
    rewrite (mitre_scan_skip _ _ _ Hpre), (mitre_scan_hit _ _ _ _ Hk).
    unfold py_get, dict_get_default. now rewrite Hta, Hte.
  - intros Hno. rewrite mitre_enrich_text. now apply mitre_scan_no_hit.
Qed.

(** C9. When the first entry whose keyword occurs in the text is a record
    [d], [mitre_enrich] returns without raising; each component is the
    value [d] holds for it, and "Unknown" when [d] lacks the key, the
    other component being returned all the same. *)
Theorem mitre_enrich_missing_component
  (mitre_map pre post : dict) (k : string) (d : dict) (text : string) :
  mitre_map = pre ++ (k, PDict d) :: post ->
  no_hit pre (lower text) ->
  contains (lower text) k ->
  exists tactic technique,
    mitre_enrich lower mitre_map (PStr text) = Ok (tactic, technique)
    /\ (lookup d "tactic" = None -> tactic = PStr "Unknown")
    /\ (forall v, lookup d "tactic" = Some v -> tactic = v)
    /\ (lookup d "technique" = None -> technique = PStr "Unknown")
    /\ (forall v, lookup d "technique" = Some v -> technique = v).
Proof.
  intros -> Hpre Hk.
  exists (dict_get_default d "tactic" (PStr "Unknown")),
         (dict_get_default d "technique" (PStr "Unknown")).
  split.
  - rewrite mitre_enrich_text.
    now rewrite (mitre_scan_skip _ _ _ Hpre), (mitre_scan_hit _ _ _ _ Hk).
  - unfold dict_get_default.
    destruct (lookup d "tactic"), (lookup d "technique");
      repeat split; congruence.
Qed.

(** X5. Once a keyword occurs in the lowercased text and no earlier
    keyword does, the entries declared after it are never looked at: they
    can be replaced by any others, malformed ones included, without
    changing the result.  An entry that is not a record raises
    AttributeError when it is that first hit. *)
Theorem mitre_enrich_first_hit_decides
  (pre : dict) (k : string) (m : pyval) (text : string) :
  no_hit pre (lower text) ->
  contains (lower text) k ->
  (forall post post' : dict,
      mitre_enrich lower (pre ++ (k, m) :: post) (PStr text)
      = mitre_enrich lower (pre ++ (k, m) :: post') (PStr text))
  /\ (is_dict m = false ->
      forall post : dict,
        mitre_enrich lower (pre ++ (k, m) :: post) (PStr text)
        = Raise (AttributeError (type_name m) "get")).
Proof.
  intros Hpre Hk.
  assert (Heq : forall post,
             mitre_enrich lower (pre ++ (k, m) :: post) (PStr text)
             = (tactic <- py_get m "tactic" (PStr "Unknown") ;;
                technique <- py_get m "technique" (PStr "Unknown") ;;
                Ok (tactic, technique))).
  { intros post. rewrite mitre_enrich_text.
    now rewrite (mitre_scan_skip _ _ _ Hpre), (mitre_scan_hit _ _ _ _ Hk). }
  split.
  - intros post post'. now rewrite !Heq.
  - intros Hm post. rewrite Heq. destruct m; try discriminate; reflexivity.
Qed.

(** X6. An empty keyword matches every alert type: in a table that
    declares the empty keyword, the entries declared after it are
    unreachable, and when it is declared first with a record [d] every
    alert type gets [d]'s tactic and technique, never the ("Unknown",
    "Unknown") of an unmatched text unless [d] says so. *)
Theorem empty_keyword_matches_everything
  (pre post : dict) (m : pyval) (d : dict) (text : string) :
  mitre_enrich lower (pre ++ (EmptyString, m) :: post) (PStr text)
  = mitre_enrich lower (pre ++ [(EmptyString, m)]) (PStr text)
  /\ mitre_enrich lower ((EmptyString, PDict d) :: post) (PStr text)
     = Ok (dict_get_default d "tactic" (PStr "Unknown"),
           dict_get_default d "technique" (PStr "Unknown")).
Proof.
  assert (He : str_in EmptyString (lower text) = true)
    by (apply str_in_iff, contains_empty).
  split.
  - rewrite !mitre_enrich_text.
    induction pre as [|[k' m'] pre IH]; simpl.
    + now rewrite He.
    + now rewrite IH.
  - rewrite mitre_enrich_text. simpl. now rewrite He.
Qed.

(** X4. The classifiers see the severity only lowercased and trimmed and
    the alert type only lowercased: two records whose severity strings
    agree after [lower] and [strip], with alert types that agree after
    [lower], get the same severity bucket, and such alert types get the
    same tactic and technique from every table. *)
Theorem classification_ignores_case
  (mitre_map a1 a2 : dict) (s1 s2 t1 t2 : string) :
  dict_get a1 "severity" = PStr s1 ->
  dict_get a2 "severity" = PStr s2 ->
  strip (lower s1) = strip (lower s2) ->
  lower t1 = lower t2 ->
  severity_bucket lower strip a1 (PStr t1)
  = severity_bucket lower strip a2 (PStr t2)
  /\ mitre_enrich lower mitre_map (PStr t1)
     = mitre_enrich lower mitre_map (PStr t2).
Proof.
  intros H1 H2 Hs Ht. split.
  - unfold severity_bucket.
    rewrite H1, H2, !py_lower_text. cbn [bind]. now rewrite Hs, Ht.
  - now rewrite !mitre_enrich_text, Ht.
Qed.

Section NoUpper.

(** [str.lower] never yields one of the letters A to Z: it lowers them,
    and no other character has one of them in its lowercase form. *)
Hypothesis lower_no_upper : forall s, has_ascii_upper (lower s) = false.


End NoUpper.

Section Extends.

(** A text of ASCII characters found in the lowercase form of a text is
    found in the lowercase form of every text that contains it:
    [str.lower] works letter by letter, but for the Greek sigma, whose
    two lowercase forms are not ASCII. *)
Hypothesis lower_extends :
  forall k t1 t2 : string,
    is_ascii k = true ->
    contains t2 t1 -> contains (lower t1) k -> contains (lower t2) k.

Lemma str_in_extend (t2 t1 k : string) :
  is_ascii k = true ->
  contains t2 t1 ->
  str_in k (lower t1) = true -> str_in k (lower t2) = true.
Proof.
  intros Ha Hc Hk. apply str_in_iff.
  apply (lower_extends k t1 t2 Ha Hc). now apply str_in_iff.
Qed.

(** X7. For a record whose severity reads as text, an alert type that
    contains another one as a substring never gets a lower severity
    bucket than the one it contains: extending the text can move the
    bucket from Low to Medium to High, never back. *)
Theorem severity_bucket_monotone (alert : dict) (raw t1 t2 : string) :
  py_or (dict_get alert "severity") (PStr EmptyString) = PStr raw ->
  contains t2 t1 ->
  exists b1 b2,
    severity_bucket lower strip alert (PStr t1) = Ok b1
    /\ severity_bucket lower strip alert (PStr t2) = Ok b2
    /\ rank b1 <= rank b2.
Proof.
  intros Hraw Hc.
  exists (classify_severity lower strip (Some raw) t1),
         (classify_severity lower strip (Some raw) t2).
  split; [now apply severity_bucket_refines|].
  split; [now apply severity_bucket_refines|].
  pose proof (fun k Ha => str_in_extend t2 t1 k Ha Hc) as M.
  unfold classify_severity.
  destruct (String.eqb (strip (lower raw)) "critical"
            || String.eqb (strip (lower raw)) "high")%bool; [apply le_n|].
  destruct (String.eqb (strip (lower raw)) "medium"); [apply le_n|].
  destruct (String.eqb (strip (lower raw)) "low"); [apply le_n|].
  destruct (str_in "sql injection" (lower t1)) eqn:E1;
    [rewrite (M "sql injection" eq_refl E1); apply le_n|].
  destruct (str_in "malware" (lower t1)) eqn:E2;
    [rewrite (M "malware" eq_refl E2), !orb_true_r; cbn; lia|].
  cbn [orb].
  destruct (str_in "brute force" (lower t1)) eqn:E3;
    [rewrite (M "brute force" eq_refl E3)|];
    (destruct (str_in "failed login" (lower t1)) eqn:E4;
     [rewrite (M "failed login" eq_refl E4)|]);
    (destruct (str_in "port scan" (lower t1)) eqn:E5;
     [rewrite (M "port scan" eq_refl E5)|]);
    destruct (str_in "sql injection" (lower t2));
    destruct (str_in "malware" (lower t2));
    try destruct (str_in "brute force" (lower t2));
    try destruct (str_in "failed login" (lower t2));
    try destruct (str_in "port scan" (lower t2));
    cbn; lia.
Qed.

End Extends.

(** ** Field resolution *)

Lemma py_or_chain (a b c default : pyval) :
  py_or (py_or (py_or a b) c) default
  = match first_nonempty [a; b; c] with Some v => v | None => default end.
Proof.
  unfold py_or, first_nonempty. simpl.
  destruct (truthy a) eqn:Ha; [now rewrite !Ha|].
  destruct (truthy b) eqn:Hb; [now rewrite !Hb|].
  destruct (truthy c) eqn:Hc; [now rewrite ?Hc|reflexivity].
Qed.

Lemma first_nonempty_truthy (vs : list pyval) (v : pyval) :
  first_nonempty vs = Some v -> truthy v = true.
Proof.
  intros H. now apply find_some in H.
Qed.

(** C6. [pick_source] returns the first non-empty value among the fields
    source, vendor, product, and "Unknown" when there is none;
    [pick_alert_type] does the same with type, alert_type, signature.
    Neither result is empty; in particular neither is the empty string. *)
Theorem pick_first_nonempty (alert : dict) :
  pick_source alert
  = match first_nonempty [dict_get alert "source"; dict_get alert "vendor";
                          dict_get alert "product"] with
    | Some v => v
    | None => PStr "Unknown"
    end
  /\ pick_alert_type alert
     = match first_nonempty [dict_get alert "type";
                             dict_get alert "alert_type";
                             dict_get alert "signature"] with
       | Some v => v
       | None => PStr "Unknown"
       end
  /\ truthy (pick_source alert) = true
  /\ truthy (pick_alert_type alert) = true
  /\ pick_source alert <> PStr EmptyString
  /\ pick_alert_type alert <> PStr EmptyString.
Proof.
  unfold pick_source, pick_alert_type. rewrite !py_or_chain.
  assert (Hgen : forall vs,
             truthy (match first_nonempty vs with
                     | Some v => v
                     | None => PStr "Unknown"
                     end) = true).
  { intros vs. destruct (first_nonempty vs) eqn:Hf; [|reflexivity].
    now apply first_nonempty_truthy in Hf. }
  repeat split; try apply Hgen.
  - intros Heq. specialize (Hgen [dict_get alert "source";
                                  dict_get alert "vendor";
                                  dict_get alert "product"]).
    rewrite Heq in Hgen. discriminate.
  - intros Heq. specialize (Hgen [dict_get alert "type";
                                  dict_get alert "alert_type";
                                  dict_get alert "signature"]).
    rewrite Heq in Hgen. discriminate.
Qed.

Lemma pick_source_truthy (alert : dict) : truthy (pick_source alert) = true.
Proof.
  unfold pick_source. rewrite py_or_chain.
  destruct (first_nonempty _) eqn:Hf; [|reflexivity].
  now apply first_nonempty_truthy in Hf.
Qed.

Lemma pick_alert_type_truthy (alert : dict) :
  truthy (pick_alert_type alert) = true.
Proof.
  unfold pick_alert_type. rewrite py_or_chain.
  destruct (first_nonempty _) eqn:Hf; [|reflexivity].
  now apply first_nonempty_truthy in Hf.
Qed.

Section Pipeline.

Variable datetime : Type.
Variable parser_parse : pyval -> result datetime.
Variable mitre_map : dict.

Lemma parse_time_eq (alert : dict) :
  parse_time datetime parser_parse alert
  = Ok (match first_nonempty [dict_get alert "timestamp";
                              dict_get alert "time";
                              dict_get alert "event_time"] with
        | Some ts => to_option (parser_parse ts)
        | None => None
        end).
Proof.
  unfold parse_time, to_option, py_or, first_nonempty, try_except, bind.
  cbn [find].
  destruct (truthy (dict_get alert "timestamp")) eqn:H1.
  - rewrite !H1. cbn [negb]. now destruct (parser_parse _).
  - destruct (truthy (dict_get alert "time")) eqn:H2.
    + rewrite !H2. cbn [negb]. now destruct (parser_parse _).
    + destruct (truthy (dict_get alert "event_time")) eqn:H3.
      * cbn [negb]. now destruct (parser_parse _).
      * reflexivity.
Qed.

(** C5. [parse_time] never raises.  It takes the first non-empty value
    among the fields timestamp, time, event_time, in that order, and
    returns what the parser makes of it, or None when the parser raises;
    it returns None when there is no such value.  In particular a
    non-empty timestamp is used whatever the other two fields hold. *)
Theorem parse_time_first_field (alert : dict) :
  parse_time datetime parser_parse alert
  = Ok (match first_nonempty [dict_get alert "timestamp";
                              dict_get alert "time";
                              dict_get alert "event_time"] with
        | Some ts => to_option (parser_parse ts)
        | None => None
        end)
  /\ (truthy (dict_get alert "timestamp") = true ->
      parse_time datetime parser_parse alert
      = Ok (to_option (parser_parse (dict_get alert "timestamp")))).
Proof.
  split; [apply parse_time_eq|].
  intros Ht. rewrite parse_time_eq. unfold first_nonempty. simpl.
  now rewrite Ht.
Qed.

(** ** The normalisation loop *)

Lemma normalize_ok (a : pyval) :
  alert_ok a = true ->
  forallb entry_ok mitre_map = true ->
  exists r,
    normalize lower strip datetime parser_parse mitre_map a = Ok r
    /\ row_ok r = true.
Proof.
  intros Ha Hm. destruct a as [| | | | | |d]; try discriminate.
  simpl in Ha. apply andb_true_iff in Ha. destruct Ha as [Hsev Htype].
  unfold normalize, as_dict. cbn [bind].
  rewrite parse_time_eq. cbn [bind].
  destruct (pick_alert_type d) as [| | | |atype| |] eqn:Hat; try discriminate.
  destruct (severity_bucket lower strip d (PStr atype)) as [b|e] eqn:Hb.
  - cbn [bind]. rewrite mitre_enrich_text.
    destruct (mitre_scan_strings mitre_map (lower atype) Hm)
      as [ta [te [Hscan [Hta Hte]]]].
    rewrite Hscan. cbn [bind fst snd]. eexists. split; [reflexivity|].
    unfold row_ok. simpl.
    rewrite (severity_bucket_is_bucket d (PStr atype) b Hb), Hta, Hte.
    reflexivity.
  - assert (Hr : raises (severity_bucket lower strip d (PStr atype)) = false)
      by (apply severity_bucket_ok_iff; now split).
    rewrite Hb in Hr. discriminate.
Qed.

Lemma loop_all_ok (alerts : list pyval) (rows0 : list (row datetime)) :
  forallb alert_ok alerts = true ->
  forallb entry_ok mitre_map = true ->
  exists rows,
    loop lower strip datetime parser_parse mitre_map alerts rows0
    = (rows0 ++ rows, None)
    /\ Forall2 (fun a r =>
                  normalize lower strip datetime parser_parse mitre_map a
                  = Ok r) alerts rows
    /\ Forall (fun r => row_ok r = true) rows.
Proof.
  intros Ha Hm. revert rows0 Ha.
  induction alerts as [|a alerts IH]; intros rows0 Ha; simpl.
  - exists []. rewrite app_nil_r. repeat split; constructor.
  - simpl in Ha. apply andb_true_iff in Ha. destruct Ha as [Ha Hrest].
    destruct (normalize_ok a Ha Hm) as [r [Hr Hok]]. rewrite Hr.
    destruct (IH (rows0 ++ [r]) Hrest) as [rows [Hloop [Hall Hrows]]].
    exists (r :: rows). rewrite Hloop, <- app_assoc. simpl.
    repeat split; constructor; assumption.
Qed.

(** C4, as the code has it.  When every alert is a record whose severity
    is a string or empty and whose resolved alert type is a string, and
    every entry of the table is a record whose tactic and technique, where
    present, are strings, the loop ends without raising and leaves exactly
    one row per alert, the i-th row being the normalisation of the i-th
    alert; every row has a severity bucket among High, Medium, Low and a
    string for its tactic and for its technique. *)
Theorem loop_one_row_per_alert (g : globals datetime) :
  forallb alert_ok (raw_alerts g) = true ->
  forallb entry_ok mitre_map = true ->
  exists rows,
    run lower strip datetime parser_parse mitre_map g
    = (mk_globals datetime (raw_alerts g) rows, None)
    /\ length rows = length (raw_alerts g)
    /\ Forall2 (fun a r =>
                  normalize lower strip datetime parser_parse mitre_map a
                  = Ok r) (raw_alerts g) rows
    /\ Forall (fun r => row_ok r = true) rows.
Proof.
  intros Ha Hm.
  destruct (loop_all_ok (raw_alerts g) [] Ha Hm) as [rows [Hloop [H2 Hok]]].
  exists rows. unfold run. rewrite Hloop. simpl.
  repeat split; try assumption.
  symmetry. eapply Forall2_length. exact H2.
Qed.

(** ** What a run leaves behind, whatever the input *)

Lemma normalize_filled (a : pyval) (r : row datetime) :
  normalize lower strip datetime parser_parse mitre_map a = Ok r ->
  row_filled r = true.
Proof.
  unfold normalize, as_dict. destruct a as [| | | | | |d]; try discriminate.
  cbn [bind]. rewrite parse_time_eq. cbn [bind].
  destruct (severity_bucket lower strip d (pick_alert_type d)) as [b|e] eqn:Hb;
    [|discriminate].
  cbn [bind].
  destruct (mitre_enrich lower mitre_map (pick_alert_type d)) as [tt|e];
    [|discriminate].
  cbn [bind]. intros H. injection H as <-. unfold row_filled. simpl.
  rewrite pick_source_truthy, pick_alert_type_truthy.
  now rewrite (severity_bucket_is_bucket _ _ _ Hb).
Qed.

Lemma loop_prefix (alerts : list pyval) (rows0 : list (row datetime)) :
  exists rows,
    fst (loop lower strip datetime parser_parse mitre_map alerts rows0)
    = rows0 ++ rows
    /\ Forall2 (fun a r =>
                  normalize lower strip datetime parser_parse mitre_map a
                  = Ok r)
               (firstn (length rows) alerts) rows
    /\ match snd (loop lower strip datetime parser_parse mitre_map
                       alerts rows0) with
       | None => length rows = length alerts
       | Some e =>
           exists a,
             nth_error alerts (length rows) = Some a
             /\ normalize lower strip datetime parser_parse mitre_map a
                = Raise e
       end.
Proof.
  revert rows0. induction alerts as [|a alerts IH]; intros rows0; simpl.
  - exists []. rewrite app_nil_r. repeat split. constructor.
  - destruct (normalize lower strip datetime parser_parse mitre_map a)
      as [r|e] eqn:Hn.
    + destruct (IH (rows0 ++ [r])) as [rows [Hfst [Hall Hsnd]]].
      exists (r :: rows). rewrite Hfst, <- app_assoc. simpl.
      split; [reflexivity|]. split; [now constructor|].
      destruct (snd (loop lower strip datetime parser_parse mitre_map alerts
                          (rows0 ++ [r]))); [exact Hsnd | now f_equal].
    + exists []. simpl. rewrite app_nil_r. repeat split; [constructor|].
      now exists a.
Qed.

(** X1. The loop fails fast.  The rows a run leaves are the
    normalisations, in order, of the alerts that precede the first alert
    whose normalisation raises; the run ends with that alert's exception,
    and with no exception exactly when every alert got its row. *)
Theorem run_fail_fast (g : globals datetime) :
  let rows :=
    normalized_rows
      (fst (run lower strip datetime parser_parse mitre_map g)) in
  Forall2 (fun a r =>
             normalize lower strip datetime parser_parse mitre_map a = Ok r)
          (firstn (length rows) (raw_alerts g)) rows
  /\ match snd (run lower strip datetime parser_parse mitre_map g) with
     | None => length rows = length (raw_alerts g)
     | Some e =>
         exists a,
           nth_error (raw_alerts g) (length rows) = Some a
           /\ normalize lower strip datetime parser_parse mitre_map a
              = Raise e
     end.
Proof.
  destruct (loop_prefix (raw_alerts g) []) as [rows [Hfst [Hall Hsnd]]].
  unfold run.
  destruct (loop lower strip datetime parser_parse mitre_map (raw_alerts g) [])
    as [rows' e]. simpl in *. subst rows'. now split.
Qed.

Lemma rows_of_run_filled (g : globals datetime) :
  Forall (fun r => row_filled r = true)
         (normalized_rows
            (fst (run lower strip datetime parser_parse mitre_map g))).
Proof.
  destruct (loop_prefix (raw_alerts g) []) as [rows [Hfst [Hall _]]].
  unfold run.
  destruct (loop lower strip datetime parser_parse mitre_map (raw_alerts g) [])
    as [rows' e]. simpl in *. subst rows'.
  induction Hall as [|a r l l' Hn _ IH]; constructor.
  - exact (normalize_filled a r Hn).
  - exact IH.
Qed.

(** X2. Every row a run leaves, also a run that an exception cuts short,
    has a source and an alert type that are not empty and a severity
    bucket among High, Medium, Low. *)
Theorem run_rows_filled (g : globals datetime) :
  Forall (fun r => row_filled r = true)
         (normalized_rows
            (fst (run lower strip datetime parser_parse mitre_map g))).
Proof.
  exact (rows_of_run_filled g).
Qed.

(** X3. Normalisation reads ten keys and nothing else: two records whose
    [get] agrees on those keys, whatever other keys they hold and whether
    a key is absent or holds null, have the same normalisation. *)
Theorem normalize_reads_ten_keys (d1 d2 : dict) :
  (forall k, In k read_keys -> dict_get d1 k = dict_get d2 k) ->
  normalize lower strip datetime parser_parse mitre_map (PDict d1)
  = normalize lower strip datetime parser_parse mitre_map (PDict d2).
Proof.
  intros H.
  assert (Hat : pick_alert_type d1 = pick_alert_type d2).
  { unfold pick_alert_type.
    rewrite (H "type"), (H "alert_type"), (H "signature");
      [reflexivity | simpl; tauto ..]. }
  assert (Hsrc : pick_source d1 = pick_source d2).
  { unfold pick_source.
    rewrite (H "source"), (H "vendor"), (H "product");
      [reflexivity | simpl; tauto ..]. }
  assert (Hts : parse_time datetime parser_parse d1
                = parse_time datetime parser_parse d2).
  { unfold parse_time.
    rewrite (H "timestamp"), (H "time"), (H "event_time");
      [reflexivity | simpl; tauto ..]. }
  assert (Hsev : forall text,
             severity_bucket lower strip d1 text
             = severity_bucket lower strip d2 text).
  { intros text. unfold severity_bucket.
    rewrite (H "severity"); [reflexivity | simpl; tauto]. }
  unfold normalize, as_dict. cbn [bind].
  now rewrite Hat, Hsrc, Hts, Hsev.
Qed.

Lemma run_raw_alerts (g : globals datetime) :
  raw_alerts (fst (run lower strip datetime parser_parse mitre_map g))
  = raw_alerts g.
Proof.
  unfold run.
  now destruct (loop lower strip datetime parser_parse mitre_map
                     (raw_alerts g) []).
Qed.

Lemma run_reads_raw_alerts (g g' : globals datetime) :
  raw_alerts g' = raw_alerts g ->
  run lower strip datetime parser_parse mitre_map g'
  = run lower strip datetime parser_parse mitre_map g.
Proof.
  intros H. unfold run. now rewrite H.
Qed.

End Pipeline.

(** ** Two runs *)

Section TwoRuns.

Variable datetime : Type.
Variable mitre_map : dict.

(** The parser as it answers during a first and during a second run. *)
Variable parse1 parse2 : pyval -> result datetime.

Lemma normalize_two_parsers (a : pyval) :
  match normalize lower strip datetime parse1 mitre_map a,
        normalize lower strip datetime parse2 mitre_map a with
  | Ok r1, Ok r2 => untimed r1 = untimed r2
  | Raise e1, Raise e2 => e1 = e2
  | _, _ => False
  end.
Proof.
  unfold normalize, as_dict. destruct a as [| | | | | |d]; try reflexivity.
  cbn [bind]. rewrite !parse_time_eq. cbn [bind].
  destruct (severity_bucket lower strip d (pick_alert_type d)) as [b|e];
    [|reflexivity].
  cbn [bind].
  destruct (mitre_enrich lower mitre_map (pick_alert_type d)) as [tt|e];
    reflexivity.
Qed.

Lemma normalize_same_answer (a : pyval) :
  (forall d, a = PDict d -> parse1 (time_value d) = parse2 (time_value d)) ->
  normalize lower strip datetime parse1 mitre_map a
  = normalize lower strip datetime parse2 mitre_map a.
Proof.
  intros H. unfold normalize, as_dict.
  destruct a as [| | | | | |d]; try reflexivity.
  cbn [bind].
  assert (Hts : parse_time datetime parse1 d = parse_time datetime parse2 d).
  { unfold parse_time. fold (time_value d). cbv zeta.
    now rewrite (H d eq_refl). }
  now rewrite Hts.
Qed.

Lemma loop_two_parsers (alerts : list pyval) (rows1 rows2 : list (row datetime)) :
  map untimed rows1 = map untimed rows2 ->
  map untimed (fst (loop lower strip datetime parse1 mitre_map alerts rows1))
  = map untimed (fst (loop lower strip datetime parse2 mitre_map alerts rows2))
  /\ snd (loop lower strip datetime parse1 mitre_map alerts rows1)
     = snd (loop lower strip datetime parse2 mitre_map alerts rows2).
Proof.
  revert rows1 rows2.
  induction alerts as [|a alerts IH]; intros rows1 rows2 Hrows; simpl.
  - now split.
  - pose proof (normalize_two_parsers a) as Hn.
    destruct (normalize lower strip datetime parse1 mitre_map a) as [r1|e1];
      destruct (normalize lower strip datetime parse2 mitre_map a) as [r2|e2];
      try contradiction.
    + apply IH. rewrite !map_app, Hrows. simpl. now rewrite Hn.
    + simpl. split; [exact Hrows | now rewrite Hn].
Qed.

Lemma loop_same_answer (alerts : list pyval) (rows : list (row datetime)) :
  (forall d, In (PDict d) alerts ->
             parse1 (time_value d) = parse2 (time_value d)) ->
  loop lower strip datetime parse1 mitre_map alerts rows
  = loop lower strip datetime parse2 mitre_map alerts rows.
Proof.
  revert rows. induction alerts as [|a alerts IH]; intros rows H; simpl.
  - reflexivity.
  - rewrite (normalize_same_answer a).
    + destruct (normalize lower strip datetime parse2 mitre_map a);
        [|reflexivity].
      apply IH. intros d Hd. apply H. now right.
    + intros d ->. apply H. now left.
Qed.

(** C8, as the code has it.  A run rebuilds [normalized_rows] from the
    empty list and leaves [raw_alerts] as it found it, so it keeps
    nothing of an earlier run: run again on the state a first run left,
    it ends as it does on the initial state.  Whatever the date parser
    answers in each run, two runs on the same alerts end with the same
    exception or none and leave rows that agree on source, alert type,
    severity bucket, tactic and technique; they leave identical rows when
    the parser gives the same answer in both runs on the time value of
    every alert. *)
Theorem run_keeps_no_state (g : globals datetime) :
  let run1 := run lower strip datetime parse1 mitre_map in
  let run2 := run lower strip datetime parse2 mitre_map in
  run2 (fst (run1 g)) = run2 g
  /\ run1 (fst (run1 g)) = run1 g
  /\ raw_alerts (fst (run1 g)) = raw_alerts g
  /\ snd (run1 g) = snd (run2 g)
  /\ map untimed (normalized_rows (fst (run1 g)))
     = map untimed (normalized_rows (fst (run2 g)))
  /\ ((forall d, In (PDict d) (raw_alerts g) ->
                 parse1 (time_value d) = parse2 (time_value d)) ->
      run1 g = run2 g).
Proof.
  intros run1 run2. unfold run1, run2.
  split; [apply run_reads_raw_alerts, run_raw_alerts|].
  split; [apply run_reads_raw_alerts, run_raw_alerts|].
  split; [apply run_raw_alerts|].
  destruct (loop_two_parsers (raw_alerts g) [] [] eq_refl) as [Hrows Hexn].
  split; [|split].
  - unfold run.
    destruct (loop lower strip datetime parse1 mitre_map (raw_alerts g) []).
    destruct (loop lower strip datetime parse2 mitre_map (raw_alerts g) []).
    exact Hexn.
  - unfold run.
    destruct (loop lower strip datetime parse1 mitre_map (raw_alerts g) []).
    destruct (loop lower strip datetime parse2 mitre_map (raw_alerts g) []).
    exact Hrows.
  - intros Hsame. unfold run.
    now rewrite (loop_same_answer (raw_alerts g) [] Hsame).
Qed.

End TwoRuns.

End Classifiers.

(** ** Filters and metrics *)

Section Filters.

Variable datetime : Type.
Variable cell_eq : pyval -> pyval -> bool.

Lemma mask_rows_map (p : row datetime -> bool) (rows : list (row datetime)) :
  mask_rows datetime rows (map p rows) = filter p rows.
Proof.
  induction rows as [|r rows IH]; simpl; [reflexivity|].
  now rewrite IH.
Qed.

Lemma filter_filter (p q : row datetime -> bool) (rows : list (row datetime)) :
  filter q (filter p rows) = filter (fun r => (p r && q r)%bool) rows.
Proof.
  induction rows as [|r rows IH]; simpl; [reflexivity|].
  destruct (p r); simpl; [|exact IH].
  destruct (q r); now rewrite IH.
Qed.

Lemma filter_true (rows : list (row datetime)) :
  filter (fun _ => true) rows = rows.
Proof.
  induction rows as [|r rows IH]; simpl; [reflexivity|]. now rewrite IH.
Qed.

Lemma filter_length_le (p : row datetime -> bool) (rows : list (row datetime)) :
  length (filter p rows) <= length rows.
Proof.
  induction rows as [|r rows IH]; simpl; [lia|].
  destruct (p r); simpl; lia.
Qed.

Lemma mask_sum_map (p : row datetime -> bool) (rows : list (row datetime)) :
  mask_sum (map p rows) = length (filter p rows).
Proof.
  unfold mask_sum. induction rows as [|r rows IH]; simpl; [reflexivity|].
  destruct (p r); simpl; now rewrite IH.
Qed.

(** One [if f != "All": df_filtered = df_filtered[cells == f]] step on a
    frame with columns. *)
Lemma filter_step {A : Type} (active : bool) (cell : row datetime -> A)
  (test : A -> bool) (rows : list (row datetime)) :
  (if active then
     col <- getitem (mk_frame datetime true rows) cell ;;
     Ok (getitem_mask (mk_frame datetime true rows) (map test col))
   else Ok (mk_frame datetime true rows))
  = Ok (mk_frame datetime true
          (filter (fun r => (negb active || test (cell r))%bool) rows)).
Proof.
  destruct active; simpl.
  - unfold getitem, getitem_mask. simpl.
    now rewrite map_map, mask_rows_map.
  - now rewrite filter_true.
Qed.

Lemma apply_filters_columns (rows : list (row datetime))
  (f_source : pyval) (f_sev : string) (f_tactic : pyval) :
  apply_filters cell_eq (mk_frame datetime true rows) f_source f_sev f_tactic
  = Ok (mk_frame datetime true
          (filter (row_passes cell_eq f_source f_sev f_tactic) rows)).
Proof.
  unfold apply_filters.
  rewrite (filter_step (py_ne_str f_source "All") row_source
             (fun c => cell_eq c f_source)).
  cbn [bind].
  rewrite (filter_step (negb (String.eqb f_sev "All")) row_severity_bucket
             (fun c => String.eqb c f_sev)).
  cbn [bind].
  rewrite (filter_step (py_ne_str f_tactic "All") row_mitre_tactic
             (fun c => cell_eq c f_tactic)).
  cbn [bind]. rewrite !filter_filter. rewrite negb_involutive.
  do 2 f_equal. apply filter_ext. intros r. unfold row_passes.
  now rewrite andb_assoc.
Qed.

(** X8. On a frame built from at least one row, the three filter steps
    amount to one pass: the filtered frame holds, in their original order,
    exactly the rows that pass every active filter, so the order in which
    the three steps run does not matter, and a select box left on "All"
    lets every row through. *)
Theorem apply_filters_is_one_filter (rows : list (row datetime))
  (f_source : pyval) (f_sev : string) (f_tactic : pyval) :
  rows <> [] ->
  apply_filters cell_eq (DataFrame rows) f_source f_sev f_tactic
  = Ok (mk_frame datetime true
          (filter (row_passes cell_eq f_source f_sev f_tactic) rows)).
Proof.
  intros Hne. destruct rows as [|r rows]; [congruence|].
  apply apply_filters_columns.
Qed.

(** X9. The metric cards of a filtered frame: the total is the number of
    filtered rows and is at most the number of rows; High and
    MITRE-mapped are at most the total; with the severity filter on
    "High" the High card equals the total, and with it on another
    severity the High card is 0.  A row counts as MITRE-mapped when its
    technique is anything but the string "Unknown". *)
Theorem metrics_of_filtered (rows : list (row datetime))
  (f_source : pyval) (f_sev : string) (f_tactic : pyval) :
  rows <> [] ->
  exists df_filtered total high mapped,
    apply_filters cell_eq (DataFrame rows) f_source f_sev f_tactic
    = Ok df_filtered
    /\ metrics df_filtered = Ok (total, high, mapped)
    /\ total = length (frame_rows df_filtered)
    /\ total <= length rows
    /\ high <= total
    /\ mapped <= total
    /\ mapped = length (filter (fun r => py_ne_str (row_mitre_technique r)
                                                  "Unknown")
                               (frame_rows df_filtered))
    /\ (f_sev = "High" -> high = total)
    /\ (f_sev <> "All" -> f_sev <> "High" -> high = 0).
Proof.
  intros Hne. destruct rows as [|r0 rows0]; [congruence|].
  set (rows := r0 :: rows0).
  set (kept := filter (row_passes cell_eq f_source f_sev f_tactic) rows).
  exists (mk_frame datetime true kept),
         (length kept),
         (length (filter (fun r => String.eqb (row_severity_bucket r) "High")
                         kept)),
         (length (filter (fun r => py_ne_str (row_mitre_technique r) "Unknown")
                         kept)).
  split; [apply apply_filters_columns|].
  split.
  { unfold metrics, getitem. cbn [frame_columns frame_rows bind].
    now rewrite !map_map, !mask_sum_map. }
  split; [reflexivity|].
  split; [apply filter_length_le|].
  split; [apply filter_length_le|].
  split; [apply filter_length_le|].
  split; [reflexivity|].
  assert (Hkept : forall r, In r kept ->
                            (String.eqb f_sev "All"
                             || String.eqb (row_severity_bucket r) f_sev)%bool
                            = true).
  { intros r Hr. apply filter_In in Hr. destruct Hr as [_ Hp].
    unfold row_passes in Hp.
    apply andb_true_iff in Hp. destruct Hp as [Hp _].
    apply andb_true_iff in Hp. now destruct Hp as [_ Hp]. }
  split.
  - intros ->. f_equal. simpl in Hkept.
    induction kept as [|r kept IH]; simpl; [reflexivity|].
    rewrite (Hkept r (or_introl eq_refl)). simpl. f_equal.
    apply IH. intros r' Hr'. apply Hkept. now right.
  - intros Hall Hhigh.
    induction kept as [|r kept IH]; simpl; [reflexivity|].
    assert (Hr := Hkept r (or_introl eq_refl)).
    destruct (String.eqb_spec f_sev "All") as [->|_]; [congruence|].
    simpl in Hr. apply String.eqb_eq in Hr.
    destruct (String.eqb_spec (row_severity_bucket r) "High") as [Hh|_];
      [congruence|].
    apply IH. intros r' Hr'. apply Hkept. now right.
Qed.

End Filters.

(** ** From the run to the dashboard *)

Section RunToDashboard.

Variable lower : string -> string.
Variable strip : string -> string.
Variable datetime : Type.
Variable parser_parse : pyval -> result datetime.
Variable mitre_map : dict.
Variable cell_eq : pyval -> pyval -> bool.

Lemma buckets_partition (rows : list (row datetime)) :
  Forall (fun r => row_filled r = true) rows ->
  length (filter (fun r => String.eqb (row_severity_bucket r) "High") rows)
  + length (filter (fun r => String.eqb (row_severity_bucket r) "Medium") rows)
  + length (filter (fun r => String.eqb (row_severity_bucket r) "Low") rows)
  = length rows.
Proof.
  induction 1 as [|r rows Hr _ IH]; [reflexivity|].
  unfold row_filled in Hr. apply andb_true_iff in Hr. destruct Hr as [_ Hb].
  unfold is_bucket, list_in in Hb. cbn [existsb] in Hb.
  rewrite orb_false_r in Hb. cbn [filter].
  destruct (String.eqb_spec (row_severity_bucket r) "High") as [Hh|_].
  - rewrite Hh. simpl. lia.
  - destruct (String.eqb_spec (row_severity_bucket r) "Medium") as [Hm|_].
    + rewrite ?Hm. simpl. lia.
    + destruct (String.eqb_spec (row_severity_bucket r) "Low") as [Hl|_];
        [|discriminate].
      simpl. lia.
Qed.

Lemma severity_only_filter (f_sev : string) (rows : list (row datetime)) :
  f_sev <> "All" ->
  filter (row_passes cell_eq (PStr "All") f_sev (PStr "All")) rows
  = filter (fun r => String.eqb (row_severity_bucket r) f_sev) rows.
Proof.
  intros Hne. apply filter_ext. intros r. unfold row_passes. simpl.
  destruct (String.eqb_spec f_sev "All"); [congruence|].
  simpl. now rewrite andb_true_r.
Qed.

(** X10. The three severity filters split the rows of a run: with the
    other two select boxes on "All", the frames filtered on High, on
    Medium and on Low hold together as many rows as the run produced, so
    no row escapes all three and none is counted twice. *)
Theorem severity_filters_partition (g : globals datetime) :
  let rows :=
    normalized_rows (fst (run lower strip datetime parser_parse mitre_map g)) in
  rows <> [] ->
  exists high medium low,
    apply_filters cell_eq (DataFrame rows) (PStr "All") "High" (PStr "All")
    = Ok high
    /\ apply_filters cell_eq (DataFrame rows) (PStr "All") "Medium"
                     (PStr "All") = Ok medium
    /\ apply_filters cell_eq (DataFrame rows) (PStr "All") "Low" (PStr "All")
       = Ok low
    /\ length (frame_rows high) + length (frame_rows medium)
       + length (frame_rows low) = length rows.
Proof.
  intros rows Hne.
  pose proof (rows_of_run_filled lower strip datetime parser_parse mitre_map g) as Hfilled.
  fold rows in Hfilled.
  assert (Hdf : DataFrame rows = mk_frame datetime true rows)
    by (destruct rows; [congruence | reflexivity]).
  rewrite Hdf.
  exists (mk_frame datetime true
            (filter (row_passes cell_eq (PStr "All") "High" (PStr "All")) rows)),
         (mk_frame datetime true
            (filter (row_passes cell_eq (PStr "All") "Medium" (PStr "All"))
                    rows)),
         (mk_frame datetime true
            (filter (row_passes cell_eq (PStr "All") "Low" (PStr "All")) rows)).
  repeat (split; [apply apply_filters_columns|]).
  cbn [frame_rows].
  rewrite !severity_only_filter by discriminate.
  now apply buckets_partition.
Qed.

End RunToDashboard.

(** * The properties on sample data *)


(** [{"severity": "informational", "type": "malware found"}] is High, as
    the same record without its severity. *)
Lemma unrecognised_severity_as_absent_witness :
  severity_bucket ascii_lower ascii_strip
    [("severity", PStr "informational"); ("type", PStr "malware found")]
    (PStr "malware found")
  = severity_bucket ascii_lower ascii_strip
      [("type", PStr "malware found")] (PStr "malware found")
  /\ severity_bucket ascii_lower ascii_strip
       [("severity", PStr "informational"); ("type", PStr "malware found")]
       (PStr "malware found")
     = Ok "High".
Proof.
  destruct (unrecognised_severity_as_absent ascii_lower ascii_strip
              eq_refl eq_refl
              [("severity", PStr "informational");
               ("type", PStr "malware found")]
              "informational" eq_refl eq_refl) as [Hsame Hrules].
  split.
  - exact (Hsame (PStr "malware found")).
  - apply (proj1 (Hrules "malware found")).
    right. apply str_in_iff. reflexivity.
Defined.

(** A record without severity and a null alert type: nothing raises. *)
Lemma classifiers_total_on_text_witness :
  raises (severity_bucket ascii_lower ascii_strip
            [("source", PStr "ids")] PNone) = false
  /\ raises (mitre_enrich ascii_lower sample_map PNone) = false
  /\ severity_bucket ascii_lower ascii_strip [("source", PStr "ids")] PNone
     = Ok "Low".
Proof.
  destruct (classifiers_total_on_text ascii_lower ascii_strip eq_refl eq_refl
              sample_map [("source", PStr "ids")] PNone)
    as [H1 [H2 H3]].
  split; [|split].
  - apply H1. split; reflexivity.
  - apply H2; reflexivity.
  - apply H3; reflexivity.
Defined.

(** C1 fails as stated: a numeric severity, or a numeric alert type, makes
    the call raise AttributeError. *)
Lemma classifiers_raise_on_number :
  severity_bucket ascii_lower ascii_strip
    [("severity", PInt 5); ("type", PStr "port scan")] (PStr "port scan")
  = Raise (AttributeError "int" "lower")
  /\ mitre_enrich ascii_lower sample_map (PInt 4625)
     = Raise (AttributeError "int" "lower").
Proof.
  split; reflexivity.
Qed.

(** The match-order example of the specification: "brute force" is
    declared before "login", and both occur in the text. *)
Lemma mitre_enrich_first_match_witness :
  mitre_enrich ascii_lower sample_map (PStr "Brute Force login attempt")
  = Ok (PStr "Credential Access", PStr "T1110")
  /\ contains (ascii_lower "Brute Force login attempt") "login"
  /\ mitre_enrich ascii_lower sample_map (PStr "unknown event xyz")
     = Ok (PStr "Unknown", PStr "Unknown").
Proof.
  split; [|split].
  - apply (proj1 (mitre_enrich_first_match ascii_lower sample_map
                    "Brute Force login attempt")
             [] "brute force"
             [("tactic", PStr "Credential Access");
              ("technique", PStr "T1110")]
             [("login", PDict [("tactic", PStr "X"); ("technique", PStr "Y")])]).
    + reflexivity.
    + constructor.
    + apply str_in_iff. reflexivity.
    + reflexivity.
    + reflexivity.
  - apply str_in_iff. reflexivity.
  - apply (proj2 (mitre_enrich_first_match ascii_lower sample_map
                    "unknown event xyz")).
    repeat constructor; apply str_in_false_iff; reflexivity.
Defined.

(** An entry with a technique and no tactic. *)
Lemma mitre_enrich_missing_component_witness :
  exists tactic technique,
    mitre_enrich ascii_lower
      [("login", PInt 0); ("scan", PDict [("technique", PStr "T1046")])]
      (PStr "Port Scan detected") = Ok (tactic, technique)
    /\ tactic = PStr "Unknown" /\ technique = PStr "T1046".
Proof.
  destruct (mitre_enrich_missing_component ascii_lower
              [("login", PInt 0); ("scan", PDict [("technique", PStr "T1046")])]
              [("login", PInt 0)] [] "scan" [("technique", PStr "T1046")]
              "Port Scan detected" eq_refl)
    as [tactic [technique [Hr [Hta [_ [_ Hte]]]]]].
  - repeat constructor. apply str_in_false_iff. reflexivity.
  - apply str_in_iff. reflexivity.
  - exists tactic, technique. split; [exact Hr|split].
    + apply Hta. reflexivity.
    + apply Hte. reflexivity.
Defined.



(** An alert with both timestamp and time uses timestamp; a timestamp the
    parser rejects gives None. *)
Lemma parse_time_first_field_witness :
  parse_time string sample_parse
    [("time", PStr "2023-12-31"); ("timestamp", PStr "2024-01-02")]
  = Ok (Some "2024-01-02")
  /\ parse_time string sample_parse [("timestamp", PStr "yesterday")]
     = Ok None.
Proof.
  split.
  - apply (proj2 (parse_time_first_field string sample_parse
                    [("time", PStr "2023-12-31");
                     ("timestamp", PStr "2024-01-02")])).
    reflexivity.
  - apply (proj2 (parse_time_first_field string sample_parse
                    [("timestamp", PStr "yesterday")])).
    reflexivity.
Defined.

(** The sample batch: three alerts, three rows. *)
Lemma loop_one_row_per_alert_witness :
  exists rows,
    run ascii_lower ascii_strip string sample_parse sample_map
        (mk_globals string sample_alerts [])
    = (mk_globals string sample_alerts rows, None)
    /\ length rows = 3
    /\ Forall2 (fun a r =>
                  normalize ascii_lower ascii_strip string sample_parse
                            sample_map a = Ok r)
               sample_alerts rows
    /\ Forall (fun r => row_ok r = true) rows.
Proof.
  apply (loop_one_row_per_alert ascii_lower ascii_strip string sample_parse
           sample_map (mk_globals string sample_alerts []));
    reflexivity.
Defined.

(** C4 fails as stated.  A numeric severity on the second of three alerts
    stops the loop with AttributeError after one row; and an entry whose
    tactic is null puts None, not a string, in the row. *)
Lemma loop_drops_alerts_on_numeric_severity :
  run ascii_lower ascii_strip string sample_parse sample_map
      (mk_globals string numeric_severity_alerts [])
  = (mk_globals string numeric_severity_alerts
       [mk_row string None (PStr "Unknown") (PStr "port scan") "Medium"
               (PStr "Unknown") (PStr "Unknown")],
     Some (AttributeError "int" "lower"))
  /\ run ascii_lower ascii_strip string sample_parse null_tactic_map
         (mk_globals string [PDict [("type", PStr "port scan")]] [])
     = (mk_globals string [PDict [("type", PStr "port scan")]]
          [mk_row string None (PStr "Unknown") (PStr "port scan") "Medium"
                  PNone (PStr "T1046")],
        None).
Proof.
  split; reflexivity.
Qed.

(** Running the sample batch again, from the state the first run left,
    with a parser that answers the same on the time values of the batch. *)
Lemma run_keeps_no_state_witness :
  run ascii_lower ascii_strip string (sample_parse_on "2024-01-03") sample_map
      (fst (run ascii_lower ascii_strip string sample_parse sample_map
                (mk_globals string sample_alerts [])))
  = run ascii_lower ascii_strip string (sample_parse_on "2024-01-03")
        sample_map (mk_globals string sample_alerts [])
  /\ run ascii_lower ascii_strip string sample_parse sample_map
         (mk_globals string sample_alerts [])
     = run ascii_lower ascii_strip string (sample_parse_on "2024-01-03")
           sample_map (mk_globals string sample_alerts []).
Proof.
  destruct (run_keeps_no_state ascii_lower ascii_strip string sample_map
              sample_parse (sample_parse_on "2024-01-03")
              (mk_globals string sample_alerts []))
    as [H1 [_ [_ [_ [_ H6]]]]].
  split; [exact H1|].
  apply H6. intros d Hd. simpl in Hd.
  repeat (destruct Hd as [Hd|Hd]; [injection Hd as <-; reflexivity|]).
  destruct Hd.
Defined.

(** C8 fails as stated.  An alert that gives a time of day and no date is
    completed with the current date, so the same alert run on two days
    gets two different timestamps. *)
Lemma runs_on_two_days_differ :
  normalized_rows
    (fst (run ascii_lower ascii_strip string (sample_parse_on "2024-01-02")
              sample_map
              (mk_globals string
                 [PDict [("time", PStr "10:30"); ("type", PStr "port scan")]]
                 [])))
  = [mk_row string (Some "2024-01-02 10:30") (PStr "Unknown")
            (PStr "port scan") "Medium" (PStr "Unknown") (PStr "Unknown")]
  /\ normalized_rows
       (fst (run ascii_lower ascii_strip string (sample_parse_on "2024-01-03")
                 sample_map
                 (mk_globals string
                    [PDict [("time", PStr "10:30");
                            ("type", PStr "port scan")]]
                    [])))
     = [mk_row string (Some "2024-01-03 10:30") (PStr "Unknown")
               (PStr "port scan") "Medium" (PStr "Unknown") (PStr "Unknown")].
Proof.
  split; reflexivity.
Qed.

(** An unread key and a null severity change nothing. *)
Lemma normalize_reads_ten_keys_witness :
  normalize ascii_lower ascii_strip string sample_parse sample_map
    (PDict [("host", PStr "web-01"); ("type", PStr "Port Scan");
            ("severity", PNone)])
  = normalize ascii_lower ascii_strip string sample_parse sample_map
      (PDict [("type", PStr "Port Scan")]).
Proof.
  apply (normalize_reads_ten_keys ascii_lower ascii_strip string sample_parse
           sample_map).
  intros k Hk. simpl in Hk.
  repeat (destruct Hk as [<-|Hk]; [reflexivity|]). destruct Hk.
Defined.

Lemma classification_ignores_case_witness :
  severity_bucket ascii_lower ascii_strip
    [("severity", PStr "  Critical ")] (PStr "PORT SCAN")
  = severity_bucket ascii_lower ascii_strip
      [("severity", PStr "CRITICAL")] (PStr "Port Scan")
  /\ mitre_enrich ascii_lower sample_map (PStr "PORT SCAN")
     = mitre_enrich ascii_lower sample_map (PStr "Port Scan").
Proof.
  apply (classification_ignores_case ascii_lower ascii_strip sample_map
           [("severity", PStr "  Critical ")] [("severity", PStr "CRITICAL")]
           "  Critical " "CRITICAL" "PORT SCAN" "Port Scan");
    reflexivity.
Defined.

(** A string where a record is expected, reached and not reached. *)
Lemma mitre_enrich_first_hit_decides_witness :
  mitre_enrich ascii_lower [("scan", PStr "Discovery"); ("port", PInt 0)]
               (PStr "Port scan")
  = Raise (AttributeError "str" "get")
  /\ mitre_enrich ascii_lower
       (("brute force", PDict [("tactic", PStr "Credential Access")])
        :: [("force", PStr "oops")])
       (PStr "Brute force")
     = mitre_enrich ascii_lower
         (("brute force", PDict [("tactic", PStr "Credential Access")])
          :: [])
         (PStr "Brute force").
Proof.
  split.
  - apply (proj2 (mitre_enrich_first_hit_decides ascii_lower
                    [] "scan" (PStr "Discovery") "Port scan"
                    (Forall_nil _)
                    (proj1 (str_in_iff "scan" (ascii_lower "Port scan"))
                           eq_refl))
             eq_refl [("port", PInt 0)]).
  - apply (proj1 (mitre_enrich_first_hit_decides ascii_lower
                    [] "brute force"
                    (PDict [("tactic", PStr "Credential Access")])
                    "Brute force"
                    (Forall_nil _)
                    (proj1 (str_in_iff "brute force"
                                       (ascii_lower "Brute force"))
                           eq_refl))
             [("force", PStr "oops")] []).
Defined.

Lemma severity_bucket_monotone_witness :
  exists b1 b2,
    severity_bucket ascii_lower ascii_strip
      [("severity", PStr "info")] (PStr "Port Scan") = Ok b1
    /\ severity_bucket ascii_lower ascii_strip
         [("severity", PStr "info")]
         (PStr "Port Scan followed by malware drop") = Ok b2
    /\ rank b1 <= rank b2.
Proof.
  apply (severity_bucket_monotone ascii_lower ascii_strip ascii_lower_extends
           [("severity", PStr "info")] "info"
           "Port Scan" "Port Scan followed by malware drop").
  - reflexivity.
  - exists EmptyString, " followed by malware drop". reflexivity.
Defined.

(** The ids rows of severity High: one of three rows, which is High and
    counts as mapped because its technique is None. *)
Lemma apply_filters_is_one_filter_witness :
  apply_filters sample_cell_eq (DataFrame sample_rows) (PStr "ids") "High"
                (PStr "All")
  = Ok (mk_frame string true
          [mk_row string None (PStr "ids") (PStr "SQL Injection detected")
                  "High" (PStr "Initial Access") PNone]).
Proof.
  apply (apply_filters_is_one_filter string sample_cell_eq sample_rows
           (PStr "ids") "High" (PStr "All")).
  discriminate.
Defined.

Lemma metrics_of_filtered_witness :
  exists df_filtered total high mapped,
    apply_filters sample_cell_eq (DataFrame sample_rows) (PStr "ids") "High"
                  (PStr "All") = Ok df_filtered
    /\ metrics df_filtered = Ok (total, high, mapped)
    /\ total = 1 /\ high = 1 /\ mapped = 1.
Proof.
  destruct (metrics_of_filtered string sample_cell_eq sample_rows
              (PStr "ids") "High" (PStr "All"))
    as [df [total [high [mapped [Hf [Hm [Ht [_ [_ [_ [Hmap [Hhigh _]]]]]]]]]]]].
  - discriminate.
  - exists df, total, high, mapped.
    split; [exact Hf|]. split; [exact Hm|].
    assert (Hdf : df = mk_frame string true
                         [mk_row string None (PStr "ids")
                                 (PStr "SQL Injection detected")
                                 "High" (PStr "Initial Access") PNone]).
    { vm_compute in Hf. now injection Hf as <-. }
    subst df. simpl in Ht, Hmap.
    split; [exact Ht|]. split; [|exact Hmap].
    rewrite (Hhigh eq_refl). exact Ht.
Defined.

Lemma severity_filters_partition_witness :
  exists high medium low,
    apply_filters sample_cell_eq
      (DataFrame (normalized_rows
                    (fst (run ascii_lower ascii_strip string sample_parse
                              sample_map
                              (mk_globals string sample_alerts [])))))
      (PStr "All") "High" (PStr "All") = Ok high
    /\ apply_filters sample_cell_eq
         (DataFrame (normalized_rows
                       (fst (run ascii_lower ascii_strip string sample_parse
                                 sample_map
                                 (mk_globals string sample_alerts [])))))
         (PStr "All") "Medium" (PStr "All") = Ok medium
    /\ apply_filters sample_cell_eq
         (DataFrame (normalized_rows
                       (fst (run ascii_lower ascii_strip string sample_parse
                                 sample_map
                                 (mk_globals string sample_alerts [])))))
         (PStr "All") "Low" (PStr "All") = Ok low
    /\ length (frame_rows high) + length (frame_rows medium)
       + length (frame_rows low) = 3.
Proof.
  apply (severity_filters_partition ascii_lower ascii_strip string sample_parse
           sample_map sample_cell_eq (mk_globals string sample_alerts [])).
  vm_compute. discriminate.
Defined.
